(** * Solscan tool server: the tool catalog and the dispatcher

    A shallow embedding of [server.py]: the tool catalog
    ([handle_list_tools]), the upstream request helper
    ([make_solscan_request]) and the dispatcher ([handle_call_tool]),
    together with the properties of the dispatch contract.

    Python values are embedded as the inductive type [pyval]; the effects
    of the program (log lines written to the log file, the HTTP GET sent
    upstream, exceptions) are embedded in a small state-and-exception
    monad [M] over a trace of events.  The [httpx] client and the process
    environment are not code of this program: they are a parameter, the
    record [world]. *)

From Stdlib Require Import String Ascii ZArith List Bool Lia DecimalString.
Import ListNotations.
Local Open Scope string_scope.
Set Warnings "-register-all".

(** ** Python values *)

(** The values that [json()] decodes and that callers pass as arguments.
    A [dict] is an association list: Python dicts keep insertion order and
    [str] prints the items in that order.  Characters are code points
    below 256; JSON numbers are the integers (floats are outside the
    model). *)
Inductive pyval : Type :=
| PNone
| PBool (b : bool)
| PInt (n : Z)
| PStr (s : string)
| PList (items : list pyval)
| PDict (items : list (string * pyval)).

Definition dict : Type := list (string * pyval).

Module Py.

(** [bool(v)]: the truth value tested by [if not v]. *)
Definition truthy (v : pyval) : bool :=
  match v with
  | PNone => false
  | PBool b => b
  | PInt n => negb (n =? 0)%Z
  | PStr s => negb (s =? "")
  | PList items => match items with [] => false | _ :: _ => true end
  | PDict items => match items with [] => false | _ :: _ => true end
  end.

(** [d.get(key)]: the value stored under [key], if any. *)
Fixpoint lookup (key : string) (d : dict) : option pyval :=
  match d with
  | [] => None
  | (k, v) :: rest => if k =? key then Some v else lookup key rest
  end.

(** [key in d] *)
Definition contains (key : string) (d : dict) : bool :=
  match lookup key d with Some _ => true | None => false end.

(** [d.get(key, default)] *)
Definition get (d : dict) (key : string) (default : pyval) : pyval :=
  match lookup key d with Some v => v | None => default end.

(** *** [repr] of a string *)

Definition dquote : ascii := "034"%char.
Definition squote : ascii := "039"%char.
Definition backslash : ascii := "092"%char.

Fixpoint has_char (c : ascii) (s : string) : bool :=
  match s with
  | EmptyString => false
  | String a rest => (a =? c)%char || has_char c rest
  end.

(** Single quotes, unless the string holds a single quote and no double
    quote. *)
Definition quote_for (s : string) : ascii :=
  if has_char squote s && negb (has_char dquote s) then dquote else squote.

Definition hex_digit (n : N) : ascii :=
  if (n <? 10)%N then ascii_of_N (48 + n) else ascii_of_N (87 + n).

Definition hex2 (n : N) : string :=
  String (hex_digit (n / 16)) (String (hex_digit (n mod 16)) EmptyString).

(** Code points that [str.isprintable] rejects, below 256. *)
Definition printable (n : N) : bool :=
  if (n <? 32)%N then false
  else if (n =? 127)%N then false
  else if (n <? 128)%N then true
  else if (n <=? 160)%N then false
  else negb (n =? 173)%N.

Definition escape_char (q c : ascii) : string :=
  let n := N_of_ascii c in
  if (c =? q)%char || (c =? backslash)%char
  then String backslash (String c EmptyString)
  else if (n =? 9)%N then String backslash "t"
  else if (n =? 10)%N then String backslash "n"
  else if (n =? 13)%N then String backslash "r"
  else if printable n then String c EmptyString
  else String backslash ("x" ++ hex2 n).

Fixpoint escape (q : ascii) (s : string) : string :=
  match s with
  | EmptyString => EmptyString
  | String c rest => escape_char q c ++ escape q rest
  end.

Definition repr_str (s : string) : string :=
  let q := quote_for s in
  String q (escape q s ++ String q EmptyString).

(** [str(n)] of an integer: decimal, with a leading minus sign. *)
Definition str_int (n : Z) : string :=
  NilZero.string_of_int (Z.to_int n).

(** [", ".join(parts)] *)
Fixpoint join_comma (parts : list string) : string :=
  match parts with
  | [] => ""
  | [p] => p
  | p :: rest => p ++ ", " ++ join_comma rest
  end.

(** [repr(v)] *)
Fixpoint repr (v : pyval) : string :=
  match v with
  | PNone => "None"
  | PBool true => "True"
  | PBool false => "False"
  | PInt n => str_int n
  | PStr s => repr_str s
  | PList items => "[" ++ join_comma (map repr items) ++ "]"
  | PDict items =>
      "{" ++ join_comma
               (map (fun kv => repr_str (fst kv) ++ ": " ++ repr (snd kv))
                    items)
          ++ "}"
  end.

(** [str(v)], which is also what an f-string field [{v}] inserts. *)
Definition str (v : pyval) : string :=
  match v with
  | PStr s => s
  | _ => repr v
  end.

End Py.

(** ** Effects *)

(** Exceptions, by class.  [str(e)] is the message. *)
Inductive exn : Type :=
| ValueError (msg : string)
| KeyError (msg : string)
| TypeError (msg : string)
| AttributeError (msg : string)
| TransportError (msg : string)   (* raised by [client.get]: timeout, connection *)
| HTTPStatusError (msg : string)  (* raised by [raise_for_status] *)
| JSONDecodeError (msg : string). (* raised by [response.json] *)

Definition str_exn (e : exn) : string :=
  match e with
  | ValueError m | KeyError m | TypeError m | AttributeError m
  | TransportError m
  | HTTPStatusError m | JSONDecodeError m => m
  end.

(** What the program does to the outside, in order. *)
Inductive event : Type :=
| LogInfo (msg : string)
| LogError (msg : string)
| HttpGet (url : string) (headers : dict) (timeout : Z).

Definition trace : Type := list event.

(** The URLs of the upstream GET requests of a trace. *)
Definition request_urls (t : trace) : list string :=
  flat_map (fun e => match e with HttpGet u _ _ => [u] | _ => [] end) t.

(** An HTTP response, as the program looks at it. *)
Record response : Type := {
  status_code : Z;
  json : exn + pyval          (* [response.json()]: decoded body, or raises *)
}.

(** The collaborators of the program: the credential read from the
    process environment and the [httpx] client. *)
Record world : Type := {
  API_TOKEN : string;
  (* [client.get(url, headers, timeout)]: a response, or raises *)
  client_get : string -> dict -> Z -> exn + response;
  (* the text of the error [raise_for_status] raises for a response *)
  status_error : string -> response -> string
}.

Inductive outcome (A : Type) : Type :=
| Returned (a : A)
| Raised (e : exn).
Arguments Returned {A} a.
Arguments Raised {A} e.

(** Computations: read the world, extend the trace, return or raise. *)
Definition M (A : Type) : Type := world -> trace -> outcome A * trace.

Definition ret {A} (a : A) : M A := fun _ t => (Returned a, t).

Definition raise {A} (e : exn) : M A := fun _ t => (Raised e, t).

Definition bind {A B} (m : M A) (k : A -> M B) : M B :=
  fun w t =>
    match m w t with
    | (Returned a, t') => k a w t'
    | (Raised e, t') => (Raised e, t')
    end.

(** [try: m  except Exception as e: h e] *)
Definition try_except {A} (m : M A) (h : exn -> M A) : M A :=
  fun w t =>
    match m w t with
    | (Returned a, t') => (Returned a, t')
    | (Raised e, t') => h e w t'
    end.

Definition emit (e : event) : M unit := fun _ t => (Returned tt, (t ++ [e])%list).

Definition ask : M world := fun w t => (Returned w, t).

Declare Scope py_scope.
Delimit Scope py_scope with py.
Notation "x <- m ;; k" := (bind m (fun x => k))
  (at level 61, m at next level, right associativity) : py_scope.
Notation "m ;; k" := (bind m (fun _ => k))
  (at level 61, right associativity) : py_scope.
Local Open Scope py_scope.

Definition logging_info (msg : string) : M unit := emit (LogInfo msg).
Definition logging_error (msg : string) : M unit := emit (LogError msg).

(** ** Operations on [arguments], a [dict] or [None] *)

Definition args_value (arguments : option dict) : pyval :=
  match arguments with
  | Some d => PDict d
  | None => PNone
  end.

(** [not arguments] *)
Definition not_args (arguments : option dict) : bool :=
  negb (Py.truthy (args_value arguments)).

(** [key not in arguments]; the program tests it on a [dict] only. *)
Definition not_in (key : string) (arguments : option dict) : bool :=
  match arguments with
  | Some d => negb (Py.contains key d)
  | None => true
  end.

(** [arguments[key]] *)
Definition getitem (arguments : option dict) (key : string) : M pyval :=
  match arguments with
  | Some d =>
      match Py.lookup key d with
      | Some v => ret v
      | None => raise (KeyError (Py.repr_str key))
      end
  | None => raise (TypeError "'NoneType' object is not subscriptable")
  end.

(** [arguments.get(key, default)] *)
Definition args_get (arguments : option dict) (key : string) (default : pyval)
  : M pyval :=
  match arguments with
  | Some d => ret (Py.get d key default)
  | None => raise (AttributeError "'NoneType' object has no attribute 'get'")
  end.

(** ** The httpx client *)

(** [response.is_success] *)
Definition is_success (r : response) : bool :=
  (200 <=? status_code r)%Z && (status_code r <=? 299)%Z.

(** [await client.get(url, headers=headers, timeout=...)] *)
Definition httpx_get (url : string) (headers : dict) (timeout : Z) : M response :=
  emit (HttpGet url headers timeout) ;;
  w <- ask ;;
  match client_get w url headers timeout with
  | inl e => raise e
  | inr r => ret r
  end.

(** [response.raise_for_status()] *)
Definition raise_for_status (url : string) (r : response) : M unit :=
  if is_success r then ret tt
  else w <- ask ;; raise (HTTPStatusError (status_error w url r)).

(** [response.json()] *)
Definition response_json (r : response) : M pyval :=
  match json r with
  | inl e => raise e
  | inr v => ret v
  end.

(** ** The tool catalog *)

Record Tool : Type := {
  name : string;
  description : string;
  inputSchema : pyval
}.

(** The content items of a tool response. *)
Inductive content : Type :=
| TextContent (text : string)
| ImageContent (data mimeType : string)
| EmbeddedResource (resource : pyval).

Definition API_BASE : string := "pro-api.solscan.io".

Definition handle_list_tools : list Tool :=
  [ {| name := "get-sol-token-price";
       description := "Get sonala price information from Solscan";
       inputSchema := PDict
         [ ("type", PStr "object");
           ("properties", PDict
             [ ("address", PDict
                 [ ("type", PStr "string");
                   ("description", PStr "Token address on Solana blockchain") ]) ]);
           ("required", PList [PStr "address"]) ] |};
    {| name := "get-latest-blocks";
       description := "Get sonala latest blocks information from Solscan";
       inputSchema := PDict
         [ ("type", PStr "object");
           ("properties", PDict
             [ ("limit", PDict
                 [ ("type", PStr "integer");
                   ("description", PStr "Number of latest blocks to return");
                   ("default", PInt 10);
                   ("minimum", PInt 1);
                   ("maximum", PInt 100) ]) ]);
           ("required", PList []) ] |};
    {| name := "get-account-info";
       description := "Get sonala accounts information for a Solana address";
       inputSchema := PDict
         [ ("type", PStr "object");
           ("properties", PDict
             [ ("address", PDict
                 [ ("type", PStr "string");
                   ("description", PStr "Solana account address") ]);
               ("page", PDict
                 [ ("type", PStr "integer");
                   ("description", PStr "Page number (1)");
                   ("default", PInt 1);
                   ("minimum", PInt 1) ]);
               ("page_size", PDict
                 [ ("type", PStr "integer");
                   ("description", PStr "Number of items per page");
                   ("default", PInt 10);
                   ("minimum", PInt 1);
                   ("maximum", PInt 100) ]) ]);
           ("required", PList [PStr "address"]) ] |};
    {| name := "get-account-activities";
       description := "Get DeFi activities for a Solana address";
       inputSchema := PDict
         [ ("type", PStr "object");
           ("properties", PDict
             [ ("address", PDict
                 [ ("type", PStr "string");
                   ("description", PStr "Solana account address") ]);
               ("page", PDict
                 [ ("type", PStr "integer");
                   ("description", PStr "Page number (1-based)");
                   ("default", PInt 1);
                   ("minimum", PInt 1) ]);
               ("page_size", PDict
                 [ ("type", PStr "integer");
                   ("description", PStr "Number of items per page");
                   ("default", PInt 10);
                   ("minimum", PInt 1);
                   ("maximum", PInt 100) ]);
               ("sort_by", PDict
                 [ ("type", PStr "string");
                   ("description", PStr "Field to sort by");
                   ("default", PStr "block_time");
                   ("enum", PList [PStr "block_time"]) ]);
               ("sort_order", PDict
                 [ ("type", PStr "string");
                   ("description", PStr "Sort order (asc or desc)");
                   ("default", PStr "desc");
                   ("enum", PList [PStr "asc"; PStr "desc"]) ]) ]);
           ("required", PList [PStr "address"]) ] |};
    {| name := "get-token-info";
       description := "Get  CA address detailed token metadata  information from Solscan";
       inputSchema := PDict
         [ ("type", PStr "object");
           ("properties", PDict
             [ ("address", PDict
                 [ ("type", PStr "string");
                   ("description", PStr "Token address on Solana blockchain") ]) ]);
           ("required", PList [PStr "address"]) ] |} ].

(** The names of the catalog, in order. *)
Definition tool_names : list string := map name handle_list_tools.

Fixpoint mentions (key : string) (items : list pyval) : bool :=
  match items with
  | [] => false
  | PStr s :: rest => (s =? key) || mentions key rest
  | _ :: rest => mentions key rest
  end.

(** A descriptor lists [key] under ["required"]. *)
Definition requires (key : string) (t : Tool) : bool :=
  match inputSchema t with
  | PDict schema =>
      match Py.lookup "required" schema with
      | Some (PList items) => mentions key items
      | _ => false
      end
  | _ => false
  end.

(** The names of the catalog tools that require [address]. *)
Definition address_tools : list string :=
  map name (filter (requires "address") handle_list_tools).

(** ** The request helper *)

(** One GET to the upstream API.  Whatever is raised while the request is
    sent, its status checked and its body decoded is caught and returned
    as the dict [{"error": str(e)}].  (The source's [client] argument is
    the [httpx] client of the [world].) *)
Definition make_solscan_request (url : string) : M pyval :=
  w <- ask ;;
  let headers : dict := [("token", PStr (API_TOKEN w))] in
  logging_info ("Request URL: " ++ url) ;;
  logging_info ("Request Headers: " ++ Py.str (PDict headers)) ;;
  try_except
    (response <- httpx_get url headers 10 ;;
     raise_for_status url response ;;
     response_data <- response_json response ;;
     logging_info ("Response Status: " ++ Py.str (PInt (status_code response))) ;;
     logging_info ("Response Data: " ++ Py.str response_data) ;;
     ret response_data)
    (fun e =>
       logging_error ("Request failed: " ++ str_exn e) ;;
       ret (PDict [("error", PStr (str_exn e))])).

(** ** The dispatcher *)

Definition handle_call_tool (name : string) (arguments : option dict)
  : M (list content) :=
  logging_info ("Tool called: " ++ name) ;;
  logging_info ("Arguments: " ++ Py.str (args_value arguments)) ;;
  if name =? "get-sol-token-price" then
    if not_args arguments || not_in "address" arguments then
      ret [TextContent "Address parameter is required"]
    else
      address <- getitem arguments "address" ;;
      let token_price_url :=
        "https://" ++ API_BASE ++ "/v2.0/token/price?address=" ++ Py.str address in
      price_data <- make_solscan_request token_price_url ;;
      if negb (Py.truthy price_data) then
        ret [TextContent "Failed to retrieve token price data"]
      else
        ret [TextContent (Py.str price_data)]

  else if name =? "list-sol-tokens" then
    page <- (if Py.truthy (args_value arguments)
             then args_get arguments "page" (PInt 1) else ret (PInt 1)) ;;
    page_size <- (if Py.truthy (args_value arguments)
                  then args_get arguments "page_size" (PInt 10) else ret (PInt 10)) ;;
    let token_list_url :=
      "https://" ++ API_BASE ++ "/v2.0/token/list?page=" ++ Py.str page
        ++ "&page_size=" ++ Py.str page_size in
    token_list_data <- make_solscan_request token_list_url ;;
    if negb (Py.truthy token_list_data) then
      ret [TextContent "Failed to retrieve token list data"]
    else
      ret [TextContent (Py.str token_list_data)]

  else if name =? "get-token-market" then
    if not_args arguments || not_in "address" arguments then
      ret [TextContent "Address parameter is required"]
    else
      address <- getitem arguments "address" ;;
      let market_url :=
        "https://" ++ API_BASE ++ "/v2.0/token/market?address=" ++ Py.str address in
      market_data <- make_solscan_request market_url ;;
      if negb (Py.truthy market_data) then
        ret [TextContent "Failed to retrieve token market data"]
      else
        ret [TextContent (Py.str market_data)]

  else if name =? "get-latest-blocks" then
    limit <- (if Py.truthy (args_value arguments)
              then args_get arguments "limit" (PInt 10) else ret (PInt 10)) ;;
    let blocks_url :=
      "https://" ++ API_BASE ++ "/v2.0/block/last?limit=" ++ Py.str limit in
    blocks_data <- make_solscan_request blocks_url ;;
    if negb (Py.truthy blocks_data) then
      ret [TextContent "Failed to retrieve latest blocks data"]
    else
      ret [TextContent (Py.str blocks_data)]

  else if name =? "get-account-info" then
    if not_args arguments || not_in "address" arguments then
      ret [TextContent "Address parameter is required"]
    else
      page <- args_get arguments "page" (PInt 1) ;;
      page_size <- args_get arguments "page_size" (PInt 10) ;;
      address <- getitem arguments "address" ;;
      let accounts_url :=
        "https://" ++ API_BASE ++ "/v2.0/account/token-accounts?address="
          ++ Py.str address ++ "&type=token&page=" ++ Py.str page
          ++ "&page_size=" ++ Py.str page_size in
      accounts_data <- make_solscan_request accounts_url ;;
      if negb (Py.truthy accounts_data) then
        ret [TextContent "Failed to retrieve account tokens data"]
      else
        ret [TextContent (Py.str accounts_data)]

  else if name =? "get-account-activities" then
    if not_args arguments || not_in "address" arguments then
      ret [TextContent "Address parameter is required"]
    else
      page <- args_get arguments "page" (PInt 1) ;;
      page_size <- args_get arguments "page_size" (PInt 10) ;;
      sort_by <- args_get arguments "sort_by" (PStr "block_time") ;;
      sort_order <- args_get arguments "sort_order" (PStr "desc") ;;
      address <- getitem arguments "address" ;;
      let activities_url :=
        "https://" ++ API_BASE ++ "/v2.0/account/defi/activities"
          ++ "?address=" ++ Py.str address
          ++ "&page=" ++ Py.str page
          ++ "&page_size=" ++ Py.str page_size
          ++ "&sort_by=" ++ Py.str sort_by
          ++ "&sort_order=" ++ Py.str sort_order in
      activities_data <- make_solscan_request activities_url ;;
      if negb (Py.truthy activities_data) then
        ret [TextContent "Failed to retrieve account activities data"]
      else
        ret [TextContent (Py.str activities_data)]

  else if name =? "get-token-info" then
    if not_args arguments || not_in "address" arguments then
      ret [TextContent "Address parameter is required"]
    else
      address <- getitem arguments "address" ;;
      let metadata_url :=
        "https://" ++ API_BASE ++ "/v2.0/token/meta?address=" ++ Py.str address in
      metadata <- make_solscan_request metadata_url ;;
      if negb (Py.truthy metadata) then
        ret [TextContent "Failed to retrieve token metadata"]
      else
        ret [TextContent (Py.str metadata)]

  else
    raise (ValueError ("Unknown tool: " ++ name)).

(** The response of a call and what the call did, from an empty trace. *)
Definition callTool (w : world) (name : string) (arguments : option dict)
  : outcome (list content) * trace :=
  handle_call_tool name arguments w [].

(** ** A summary of the request helper *)

(** The headers every request carries. *)
Definition auth_headers (w : world) : dict := [("token", PStr (API_TOKEN w))].

(** How the upstream GET to [url] fails: the three ways the [try] block of
    [make_solscan_request] raises. *)
Inductive upstream_fails (w : world) (url : string) : exn -> Prop :=
| fails_transport e :
    client_get w url (auth_headers w) 10 = inl e ->
    upstream_fails w url e
| fails_status r :
    client_get w url (auth_headers w) 10 = inr r ->
    is_success r = false ->
    upstream_fails w url (HTTPStatusError (status_error w url r))
| fails_decode r e :
    client_get w url (auth_headers w) 10 = inr r ->
    is_success r = true ->
    json r = inl e ->
    upstream_fails w url e.

(** The upstream GET to [url] succeeds and its body decodes to [v]. *)
Definition upstream_yields (w : world) (url : string) (v : pyval) : Prop :=
  exists r,
    client_get w url (auth_headers w) 10 = inr r /\
    is_success r = true /\
    json r = inr v.

(** What the [try] block comes to: the decoded body, or what it raises. *)
Definition attempt (w : world) (url : string) : exn + pyval :=
  match client_get w url (auth_headers w) 10 with
  | inl e => inl e
  | inr r =>
      if is_success r then json r
      else inl (HTTPStatusError (status_error w url r))
  end.

(** The dict an exception is turned into. *)
Definition error_dict (e : exn) : pyval := PDict [("error", PStr (str_exn e))].

(** The value [make_solscan_request] returns. *)
Definition request_value (w : world) (url : string) : pyval :=
  match attempt w url with
  | inr v => v
  | inl e => error_dict e
  end.

(** ** A summary of the dispatcher *)

(** What a call comes to before the network is involved. *)
Inductive route : Type :=
| Reject                                   (* the address is missing *)
| Fetch (url : string) (failure : string)  (* one GET, and the text when it gives nothing *)
| Unknown.                                 (* no such tool *)

(** The address guard of a tool. *)
Definition address_missing (arguments : option dict) : bool :=
  not_args arguments || not_in "address" arguments.

(** [arguments.get(key, default)], or [default] when [arguments] is falsy. *)
Definition optional (arguments : option dict) (key : string) (default : pyval)
  : pyval :=
  match arguments with
  | Some ((_ :: _) as d) => Py.get d key default
  | _ => default
  end.

(** [arguments[key]] once the guard has passed. *)
Definition required (arguments : option dict) (key : string) : pyval :=
  match arguments with
  | Some d => Py.get d key PNone
  | None => PNone
  end.

Definition route_of (name : string) (arguments : option dict) : route :=
  let address := Py.str (required arguments "address") in
  let opt key default := Py.str (optional arguments key default) in
  if name =? "get-sol-token-price" then
    if address_missing arguments then Reject
    else Fetch ("https://pro-api.solscan.io/v2.0/token/price?address=" ++ address)
               "Failed to retrieve token price data"
  else if name =? "list-sol-tokens" then
    Fetch ("https://pro-api.solscan.io/v2.0/token/list?page="
             ++ opt "page" (PInt 1) ++ "&page_size=" ++ opt "page_size" (PInt 10))
          "Failed to retrieve token list data"
  else if name =? "get-token-market" then
    if address_missing arguments then Reject
    else Fetch ("https://pro-api.solscan.io/v2.0/token/market?address=" ++ address)
               "Failed to retrieve token market data"
  else if name =? "get-latest-blocks" then
    Fetch ("https://pro-api.solscan.io/v2.0/block/last?limit="
             ++ opt "limit" (PInt 10))
          "Failed to retrieve latest blocks data"
  else if name =? "get-account-info" then
    if address_missing arguments then Reject
    else Fetch ("https://pro-api.solscan.io/v2.0/account/token-accounts?address="
                  ++ address ++ "&type=token&page=" ++ opt "page" (PInt 1)
                  ++ "&page_size=" ++ opt "page_size" (PInt 10))
               "Failed to retrieve account tokens data"
  else if name =? "get-account-activities" then
    if address_missing arguments then Reject
    else Fetch ("https://pro-api.solscan.io/v2.0/account/defi/activities?address="
                  ++ address ++ "&page=" ++ opt "page" (PInt 1)
                  ++ "&page_size=" ++ opt "page_size" (PInt 10)
                  ++ "&sort_by=" ++ opt "sort_by" (PStr "block_time")
                  ++ "&sort_order=" ++ opt "sort_order" (PStr "desc"))
               "Failed to retrieve account activities data"
  else if name =? "get-token-info" then
    if address_missing arguments then Reject
    else Fetch ("https://pro-api.solscan.io/v2.0/token/meta?address=" ++ address)
               "Failed to retrieve token metadata"
  else Unknown.

(** The response of a call that fetched [data]. *)
Definition render (failure : string) (data : pyval) : list content :=
  if negb (Py.truthy data) then [TextContent failure]
  else [TextContent (Py.str data)].

(** The response a route leads to. *)
Definition route_outcome (w : world) (name : string) (r : route)
  : outcome (list content) :=
  match r with
  | Reject => Returned [TextContent "Address parameter is required"]
  | Fetch url failure => Returned (render failure (request_value w url))
  | Unknown => Raised (ValueError ("Unknown tool: " ++ name))
  end.

(** The URLs a route requests. *)
Definition route_urls (r : route) : list string :=
  match r with
  | Fetch url _ => [url]
  | _ => []
  end.

(** ** Vocabulary of the claims *)

(** The arguments carry no [address]: they are absent, or a mapping
    without that key. *)
Definition address_absent (arguments : option dict) : Prop :=
  match arguments with
  | None => True
  | Some d => Py.lookup "address" d = None
  end.

(** The arguments carry what the descriptor of [name] requires. *)
Definition required_present (name : string) (arguments : option dict) : bool :=
  if existsb (String.eqb name) address_tools then
    match arguments with
    | Some d => Py.contains "address" d
    | None => false
    end
  else true.

(** The tool-specific text of a call that retrieved nothing. *)
Definition failure_text (name : string) : string :=
  if name =? "get-sol-token-price" then "Failed to retrieve token price data"
  else if name =? "get-latest-blocks" then "Failed to retrieve latest blocks data"
  else if name =? "get-account-info" then "Failed to retrieve account tokens data"
  else if name =? "get-account-activities" then "Failed to retrieve account activities data"
  else if name =? "get-token-info" then "Failed to retrieve token metadata"
  else "".

(** A mocked upstream: every GET is answered 200 with the body [v]. *)
Definition echo (v : pyval) : world :=
  {| API_TOKEN := "secret";
     client_get := fun _ _ _ => inr {| status_code := 200; json := inr v |};
     status_error := fun _ _ => "" |}.

(** An upstream that answers every GET with [status] and an empty object. *)
Definition answering (status : Z) : world :=
  {| API_TOKEN := "secret";
     client_get := fun _ _ _ => inr {| status_code := status; json := inr (PDict []) |};
     status_error := fun url r =>
       "Server error '" ++ Py.str_int (status_code r) ++ "' for url '" ++ url ++ "'" |}.

(** An upstream that never answers: every GET times out. *)
Definition silent : world :=
  {| API_TOKEN := "secret";
     client_get := fun _ _ _ => inl (TransportError "timed out");
     status_error := fun _ _ => "" |}.

(** An upstream whose answers are 200 with a body that is not JSON. *)
Definition garbled : world :=
  {| API_TOKEN := "secret";
     client_get := fun _ _ _ =>
       inr {| status_code := 200;
              json := inl (JSONDecodeError "Expecting value: line 1 column 1 (char 0)") |};
     status_error := fun _ _ => "" |}.

(** Arguments far outside the bounds and enums of the schemas. *)
Definition out_of_range : dict :=
  [ ("address", PStr "X"); ("limit", PInt 1000); ("page", PInt (-3));
    ("page_size", PInt 5000); ("sort_by", PStr "slot");
    ("sort_order", PStr "sideways") ].

(** ** Vocabulary of the further properties *)

(** The upstream GET requests of a trace, with their headers and timeout. *)
Definition requests (t : trace) : trace :=
  filter (fun e => match e with HttpGet _ _ _ => true | _ => false end) t.

(** What one run of [make_solscan_request] adds to the trace. *)
Definition request_events (w : world) (url : string) : trace :=
  app
  [ LogInfo ("Request URL: " ++ url);
    LogInfo ("Request Headers: " ++ Py.str (PDict (auth_headers w)));
    HttpGet url (auth_headers w) 10 ]
  (match client_get w url (auth_headers w) 10 with
     | inl e => [LogError ("Request failed: " ++ str_exn e)]
     | inr r =>
         if is_success r then
           match json r with
           | inl e => [LogError ("Request failed: " ++ str_exn e)]
           | inr v =>
               [ LogInfo ("Response Status: " ++ Py.str (PInt (status_code r)));
                 LogInfo ("Response Data: " ++ Py.str v) ]
           end
         else [LogError ("Request failed: " ++ status_error w url r)]
   end).

(** What one call of the dispatcher adds to the trace. *)
Definition call_events (w : world) (name : string) (arguments : option dict)
  : trace :=
  app
  [ LogInfo ("Tool called: " ++ name);
    LogInfo ("Arguments: " ++ Py.str (args_value arguments)) ]
  (match route_of name arguments with
      | Fetch url _ => request_events w url
      | _ => []
   end).

(** The defaults a descriptor declares: the keys of its [properties] that
    carry a [default], with that default. *)
Definition defaults_of (t : Tool) : list (string * pyval) :=
  match inputSchema t with
  | PDict schema =>
      match Py.lookup "properties" schema with
      | Some (PDict properties) =>
          flat_map
            (fun kv =>
               match snd kv with
               | PDict property =>
                   match Py.lookup "default" property with
                   | Some default => [(fst kv, default)]
                   | None => []
                   end
               | _ => []
               end)
            properties
      | _ => []
      end
  | _ => []
  end.

(** Start-up of the module: the credential is read from the environment
    ([os.getenv]) and the module refuses to load without it. *)
Definition startup (getenv : string -> option string) : exn + string :=
  let token := getenv "SOLSCAN_API_TOKEN" in
  let value := match token with Some s => PStr s | None => PNone end in
  if negb (Py.truthy value)
  then inl (ValueError "SOLSCAN_API_TOKEN environment variable is not set")
  else inr (Py.str value).

(** * Properties *)

(** ** Concrete runs *)

Example repr_nested :
  Py.repr (PDict [("a", PInt (-5)); ("b", PList [PStr "x"; PNone; PBool true])])
  = "{'a': -5, 'b': ['x', None, True]}".
Proof. reflexivity. Qed.

Example repr_str_with_apostrophe :
  Py.repr_str "it's" = String Py.dquote ("it's" ++ String Py.dquote "").
Proof. reflexivity. Qed.

Example repr_str_escapes :
  Py.repr_str (String "009" (String "127" "a"))
  = "'" ++ String Py.backslash "t" ++ String Py.backslash "x7fa'".
Proof. reflexivity. Qed.

Example run_timeout :
  callTool silent "get-latest-blocks" None
  = (Returned [TextContent "{'error': 'timed out'}"],
     [ LogInfo "Tool called: get-latest-blocks";
       LogInfo "Arguments: None";
       LogInfo "Request URL: https://pro-api.solscan.io/v2.0/block/last?limit=10";
       LogInfo "Request Headers: {'token': 'secret'}";
       HttpGet "https://pro-api.solscan.io/v2.0/block/last?limit=10"
               [("token", PStr "secret")] 10;
       LogError "Request failed: timed out" ]).
Proof. reflexivity. Qed.

Example run_garbled :
  fst (callTool garbled "get-token-info" (Some [("address", PStr "X")]))
  = Returned
      [TextContent "{'error': 'Expecting value: line 1 column 1 (char 0)'}"].
Proof. reflexivity. Qed.

Example run_echo :
  callTool (echo (PDict [("price", PInt 7)])) "get-sol-token-price"
    (Some [("address", PStr "So11")])
  = (Returned [TextContent "{'price': 7}"],
     [ LogInfo "Tool called: get-sol-token-price";
       LogInfo "Arguments: {'address': 'So11'}";
       LogInfo "Request URL: https://pro-api.solscan.io/v2.0/token/price?address=So11";
       LogInfo "Request Headers: {'token': 'secret'}";
       HttpGet "https://pro-api.solscan.io/v2.0/token/price?address=So11"
               [("token", PStr "secret")] 10;
       LogInfo "Response Status: 200";
       LogInfo "Response Data: {'price': 7}" ]).
Proof. reflexivity. Qed.

Example run_unknown :
  callTool silent "get-top-tokens" None
  = (Raised (ValueError "Unknown tool: get-top-tokens"),
     [ LogInfo "Tool called: get-top-tokens"; LogInfo "Arguments: None" ]).
Proof. reflexivity. Qed.

(** ** The request helper never raises *)

Lemma request_urls_app t1 t2 :
  request_urls (t1 ++ t2)%list = (request_urls t1 ++ request_urls t2)%list.
Proof. unfold request_urls. apply flat_map_app. Qed.

Lemma make_solscan_request_run url w t :
  exists t',
    make_solscan_request url w t = (Returned (request_value w url), t') /\
    request_urls t' = (request_urls t ++ [url])%list.
Proof.
  cbv [make_solscan_request request_value attempt try_except bind ask
    httpx_get raise_for_status response_json logging_info logging_error
    emit ret raise auth_headers error_dict].
  destruct (client_get w url _ 10) as [e | r].
  - eexists; split; [reflexivity |].
    rewrite !request_urls_app. cbn. rewrite !app_nil_r. reflexivity.
  - destruct (is_success r).
    + destruct (json r) as [e | v]; (eexists; split; [reflexivity|]);
      rewrite !request_urls_app; cbn; rewrite !app_nil_r; reflexivity.
    + eexists; split; [reflexivity |].
      rewrite !request_urls_app. cbn. rewrite !app_nil_r. reflexivity.
Qed.

(** ** The address guard *)

Lemma lookup_truthy key d v :
  Py.lookup key d = Some v -> Py.truthy (PDict d) = true.
Proof. destruct d; [discriminate | reflexivity]. Qed.

Lemma address_missing_false d a :
  Py.lookup "address" d = Some a -> address_missing (Some d) = false.
Proof.
  intros L. unfold address_missing, not_args, not_in, Py.contains, args_value.
  rewrite (lookup_truthy _ _ _ L), L. reflexivity.
Qed.

Lemma address_missing_true arguments :
  address_absent arguments -> address_missing arguments = true.
Proof.
  destruct arguments as [d |]; [| reflexivity].
  cbn [address_absent]. intros L.
  unfold address_missing, not_in, Py.contains. rewrite L.
  apply orb_true_r.
Qed.

Lemma address_missing_cases arguments :
  (address_missing arguments = true /\ address_absent arguments) \/
  (exists d a, arguments = Some d /\ Py.lookup "address" d = Some a /\
               address_missing arguments = false).
Proof.
  destruct arguments as [d |].
  - destruct (Py.lookup "address" d) as [a |] eqn:L.
    + right. exists d, a. repeat split; trivial. now apply address_missing_false with a.
    + left. split; [apply address_missing_true|]; exact L.
  - left. split; [reflexivity | exact I].
Qed.

(** ** The dispatcher follows its summary *)

Ltac run_request :=
  match goal with
  | |- context [make_solscan_request ?u ?w ?t] =>
      let t' := fresh "t'" in
      let E := fresh "E" in
      let U := fresh "U" in
      destruct (make_solscan_request_run u w t) as (t' & E & U);
      rewrite E; clear E
  end.


Lemma optional_truthy d key default :
  Py.truthy (PDict d) = true -> optional (Some d) key default = Py.get d key default.
Proof. destruct d; [discriminate | reflexivity]. Qed.

Ltac finish_fetch U :=
  cbv [route_outcome render route_urls];
  destruct (Py.truthy (request_value _ _)); cbn [negb];
  (eexists; split; [reflexivity | exact U]).

(** A tool that requires [address]. *)
Ltac guarded_branch :=
  match goal with
  | |- context [address_missing ?args] =>
      let G := fresh "G" in let L := fresh "L" in
      let d := fresh "d" in let a := fresh "a" in
      destruct (address_missing_cases args) as [[G _] | (d & a & -> & L & G)];
      rewrite G;
      [ eexists; split; reflexivity
      | cbv [bind getitem args_get required ret];
        rewrite ?(optional_truthy _ _ _ (lookup_truthy _ _ _ L));
        cbv [Py.get]; rewrite L;
        cbn [append];
        run_request;
        match goal with U : request_urls _ = _ |- _ => finish_fetch U end ]
  end.

(** A tool whose arguments are all optional. *)
Ltac open_branch :=
  match goal with
  | |- context [args_value ?args] =>
      destruct args as [[| ? ?] |];
      cbn [args_value Py.truthy optional];
      cbv [bind args_get ret];
      cbn [append];
      run_request;
      match goal with U : request_urls _ = _ |- _ => finish_fetch U end
  end.

Lemma callTool_route w name arguments :
  exists t,
    callTool w name arguments
    = (route_outcome w name (route_of name arguments), t) /\
    request_urls t = route_urls (route_of name arguments).
Proof.
  cbv [callTool handle_call_tool route_of bind logging_info emit API_BASE].
  fold (address_missing arguments).
  repeat match goal with
         | |- context [String.eqb name ?s] =>
             destruct (String.eqb name s)
         end.
  - guarded_branch.
  - open_branch.
  - guarded_branch.
  - open_branch.
  - guarded_branch.
  - guarded_branch.
  - guarded_branch.
  - eexists; split; reflexivity.
Qed.

(** ** Consequences of the summary *)

Lemma callTool_outcome w name arguments :
  fst (callTool w name arguments)
  = route_outcome w name (route_of name arguments).
Proof.
  destruct (callTool_route w name arguments) as (t & E & _).
  now rewrite E.
Qed.

Lemma callTool_urls w name arguments :
  request_urls (snd (callTool w name arguments))
  = route_urls (route_of name arguments).
Proof.
  destruct (callTool_route w name arguments) as (t & E & U).
  now rewrite E.
Qed.

(** A route that requests [url] is a fetch of [url]. *)
Lemma route_urls_fetch r url :
  In url (route_urls r) -> exists failure, r = Fetch url failure.
Proof.
  destruct r as [| u f |]; cbn; try tauto.
  intros [<- | []]. now exists f.
Qed.

(** The routes of the catalog tools. *)
Lemma route_of_catalog name arguments :
  In name tool_names ->
  (In name address_tools /\ address_missing arguments = true /\
   route_of name arguments = Reject) \/
  (exists url, route_of name arguments = Fetch url (failure_text name) /\
               (In name address_tools -> address_missing arguments = false)).
Proof.
  intros H. simpl in H.
  destruct H as [<- | [<- | [<- | [<- | [<- | []]]]]];
    cbv [route_of failure_text]; cbn [String.eqb Ascii.eqb Bool.eqb];
    try (destruct (address_missing arguments);
         [ left; repeat split; trivial; vm_compute; tauto
         | right; eexists; split; [reflexivity | trivial] ]).
  all: right; eexists; split; [reflexivity |]; vm_compute; intuition discriminate.
Qed.

Lemma attempt_fails w url e : upstream_fails w url e -> attempt w url = inl e.
Proof.
  unfold attempt. destruct 1 as [e H | r H S | r e H S J]; rewrite H; trivial.
  - now rewrite S.
  - now rewrite S.
Qed.

Lemma attempt_yields w url v : upstream_yields w url v -> attempt w url = inr v.
Proof.
  unfold attempt. intros (r & H & S & J). now rewrite H, S.
Qed.

Lemma required_present_guard name arguments :
  In name address_tools ->
  required_present name arguments = true ->
  address_missing arguments = false.
Proof.
  intros H. unfold required_present.
  replace (existsb (String.eqb name) address_tools) with true.
  - destruct arguments as [d |]; [| discriminate].
    unfold Py.contains. destruct (Py.lookup "address" d) eqn:L; [| discriminate].
    intros _. now apply address_missing_false with p.
  - symmetry. apply existsb_exists. exists name. split; trivial. apply String.eqb_refl.
Qed.

Lemma echo_returns v url t :
  exists t', make_solscan_request url (echo v) t = (Returned v, t').
Proof.
  destruct (make_solscan_request_run url (echo v) t) as (t' & E & _).
  exists t'. exact E.
Qed.

(** The falsy values: empty object, empty array, null, 0, false and the
    empty string. *)
Lemma falsy_values v :
  Py.truthy v = false <->
  In v [PDict []; PList []; PNone; PInt 0; PBool false; PStr ""].
Proof.
  split.
  - destruct v as [| [] | n | s | [| ? ?] | [| ? ?]]; cbn; try discriminate; auto 7.
    + destruct n; cbn; try discriminate; auto 7.
    + destruct s; cbn; try discriminate; auto 7.
  - cbn. intros [<- | [<- | [<- | [<- | [<- | [<- | []]]]]]]; reflexivity.
Qed.

(** ** Claims *)

(** C1.  For every catalog tool that requires [address]
    (get-sol-token-price, get-account-info, get-account-activities,
    get-token-info), a call whose arguments are absent, or are a mapping
    without the key [address], returns the single text item
    "Address parameter is required", and the call sends no upstream
    request. *)
Theorem address_is_required w name arguments :
  In name address_tools ->
  address_absent arguments ->
  exists t,
    callTool w name arguments
    = (Returned [TextContent "Address parameter is required"], t) /\
    request_urls t = [].
Proof.
  intros H A.
  destruct (callTool_route w name arguments) as (t & E & U).
  exists t. rewrite E, U. clear E U.
  apply address_missing_true in A.
  simpl in H.
  destruct H as [<- | [<- | [<- | [<- | []]]]];
    cbv [route_of]; cbn [String.eqb Ascii.eqb Bool.eqb]; rewrite A;
    split; reflexivity.
Qed.

Lemma address_is_required_witness :
  exists t,
    callTool silent "get-account-info" (Some [("page", PInt 2)])
    = (Returned [TextContent "Address parameter is required"], t) /\
    request_urls t = [].
Proof.
  apply (address_is_required silent "get-account-info" (Some [("page", PInt 2)])).
  - simpl. tauto.
  - reflexivity.
Defined.

(** C2, evaluated where it fails.  [list-sol-tokens] is not in the catalog,
    yet a call to it with no arguments is served: it sends one GET to
    [token/list] and returns one text item instead of raising. *)
Theorem unlisted_tool_is_served w :
  ~ In "list-sol-tokens" tool_names /\
  exists text t,
    callTool w "list-sol-tokens" None = (Returned [TextContent text], t) /\
    request_urls t
    = ["https://pro-api.solscan.io/v2.0/token/list?page=1&page_size=10"].
Proof.
  split.
  - simpl. intuition discriminate.
  - destruct (callTool_route w "list-sol-tokens" None) as (t & E & U).
    rewrite E. cbv [route_of route_outcome route_urls render] in *.
    cbn [String.eqb Ascii.eqb Bool.eqb] in *.
    destruct (Py.truthy _); cbn [negb];
      (eexists; exists t; split; [reflexivity | exact U]).
Qed.

(** X11.  Names outside the seven names the dispatcher tests for do raise
    [ValueError], before any request. *)
Lemma unknown_tool_raises w name arguments :
  ~ In name ("list-sol-tokens" :: "get-token-market" :: tool_names) ->
  exists t,
    callTool w name arguments
    = (Raised (ValueError ("Unknown tool: " ++ name)), t) /\
    request_urls t = [].
Proof.
  intros H.
  destruct (callTool_route w name arguments) as (t & E & U).
  exists t. rewrite E, U. clear E U.
  simpl in H. cbv [route_of].
  repeat match goal with
         | |- context [String.eqb name ?s] =>
             destruct (String.eqb_spec name s); [exfalso; subst; tauto |]
         end.
  split; reflexivity.
Qed.

Lemma route_of_present name arguments :
  In name tool_names ->
  required_present name arguments = true ->
  exists url, route_of name arguments = Fetch url (failure_text name).
Proof.
  intros H P.
  destruct (route_of_catalog name arguments H) as [(A & G & _) | (url & R & _)].
  - rewrite (required_present_guard name arguments A P) in G. discriminate.
  - now exists url.
Qed.

Lemma helper_value w url v t t' :
  make_solscan_request url w t = (Returned v, t') -> request_value w url = v.
Proof.
  destruct (make_solscan_request_run url w t) as (t'' & E & _).
  rewrite E. congruence.
Qed.

(** C3, as stated, fails on the empty JSON object: with an upstream that
    echoes [{}] back, [get-token-info] for the address "X" answers
    "Failed to retrieve token metadata", which is not [str({})]. *)
Lemma roundtrip_fails_on_empty_object :
  (forall url t,
      exists t', make_solscan_request url (echo (PDict [])) t
                 = (Returned (PDict []), t')) /\
  In "get-token-info" tool_names /\
  required_present "get-token-info" (Some [("address", PStr "X")]) = true /\
  fst (callTool (echo (PDict [])) "get-token-info" (Some [("address", PStr "X")]))
  = Returned [TextContent "Failed to retrieve token metadata"] /\
  Py.str (PDict []) = "{}" /\
  fst (callTool (echo (PDict [])) "get-token-info" (Some [("address", PStr "X")]))
  <> Returned [TextContent (Py.str (PDict []))].
Proof.
  split; [intros; apply echo_returns |].
  split; [simpl; tauto |].
  split; [reflexivity |].
  split; [reflexivity |].
  split; [reflexivity |].
  discriminate.
Qed.

(** C3, amended.  For every catalog tool called with its required
    arguments, if the request helper returns the value [v] whatever the
    URL, and [v] is truthy (so, for every non-empty JSON object), the
    call returns the single text item [str(v)]. *)
Theorem roundtrip_of_truthy_payload w name arguments v :
  In name tool_names ->
  required_present name arguments = true ->
  (forall url t, exists t', make_solscan_request url w t = (Returned v, t')) ->
  Py.truthy v = true ->
  fst (callTool w name arguments) = Returned [TextContent (Py.str v)].
Proof.
  intros H P Hv T.
  rewrite callTool_outcome.
  destruct (route_of_present name arguments H P) as (url & ->).
  destruct (Hv url []) as (t' & E).
  cbv [route_outcome render].
  rewrite (helper_value _ _ _ _ _ E), T. reflexivity.
Qed.

Lemma roundtrip_of_truthy_payload_witness :
  fst (callTool (echo (PDict [("price", PInt 7)])) "get-sol-token-price"
         (Some [("address", PStr "X")]))
  = Returned [TextContent "{'price': 7}"].
Proof.
  apply (roundtrip_of_truthy_payload (echo (PDict [("price", PInt 7)]))
           "get-sol-token-price" (Some [("address", PStr "X")])
           (PDict [("price", PInt 7)])).
  - simpl. tauto.
  - reflexivity.
  - intros url t. apply echo_returns.
  - reflexivity.
Defined.

(** C4.  When the GET a call sends fails, by an error of the transport
    such as a timeout, by a status outside 2xx, or by a body that does not
    decode, the helper returns the dict [{"error": str(e)}] and the call
    returns the single text item that is the [str] of that dict; nothing
    is raised. *)
Theorem upstream_failure_becomes_text w name arguments url e :
  In url (request_urls (snd (callTool w name arguments))) ->
  upstream_fails w url e ->
  fst (make_solscan_request url w []) = Returned (PDict [("error", PStr (str_exn e))]) /\
  fst (callTool w name arguments)
  = Returned [TextContent (Py.str (PDict [("error", PStr (str_exn e))]))].
Proof.
  intros U F.
  assert (V : request_value w url = error_dict e).
  { unfold request_value. now rewrite (attempt_fails _ _ _ F). }
  split.
  - destruct (make_solscan_request_run url w []) as (t' & E & _).
    rewrite E. cbn [fst]. now rewrite V.
  - rewrite callTool_urls in U. rewrite callTool_outcome.
    destruct (route_urls_fetch _ _ U) as (failure & ->).
    cbv [route_outcome render]. rewrite V. reflexivity.
Qed.

Lemma upstream_failure_becomes_text_witness :
  let url := "https://pro-api.solscan.io/v2.0/block/last?limit=10" in
  let message := "Server error '500' for url '" ++ url ++ "'" in
  fst (make_solscan_request url (answering 500) [])
  = Returned (PDict [("error", PStr message)]) /\
  fst (callTool (answering 500) "get-latest-blocks" None)
  = Returned [TextContent (Py.str (PDict [("error", PStr message)]))].
Proof.
  apply (upstream_failure_becomes_text (answering 500) "get-latest-blocks" None
           "https://pro-api.solscan.io/v2.0/block/last?limit=10"
           (HTTPStatusError
              "Server error '500' for url 'https://pro-api.solscan.io/v2.0/block/last?limit=10'")).
  - simpl. tauto.
  - exact (fails_status (answering 500)
             "https://pro-api.solscan.io/v2.0/block/last?limit=10"
             {| status_code := 500; json := inr (PDict []) |}
             eq_refl eq_refl).
Defined.

(** The URL of [get-account-info]. *)
Lemma account_info_url w d a :
  Py.lookup "address" d = Some a ->
  request_urls (snd (callTool w "get-account-info" (Some d)))
  = ["https://pro-api.solscan.io/v2.0/account/token-accounts?address="
       ++ Py.str a ++ "&type=token&page=" ++ Py.str (Py.get d "page" (PInt 1))
       ++ "&page_size=" ++ Py.str (Py.get d "page_size" (PInt 10))].
Proof.
  intros L. rewrite callTool_urls.
  cbv [route_of]. cbn [String.eqb Ascii.eqb Bool.eqb].
  rewrite (address_missing_false d a L).
  rewrite !(optional_truthy _ _ _ (lookup_truthy _ _ _ L)).
  cbv [required]. unfold Py.get at 1. rewrite L. reflexivity.
Qed.

(** The URL of [get-account-activities]. *)
Lemma account_activities_url w d a :
  Py.lookup "address" d = Some a ->
  request_urls (snd (callTool w "get-account-activities" (Some d)))
  = ["https://pro-api.solscan.io/v2.0/account/defi/activities?address="
       ++ Py.str a
       ++ "&page=" ++ Py.str (Py.get d "page" (PInt 1))
       ++ "&page_size=" ++ Py.str (Py.get d "page_size" (PInt 10))
       ++ "&sort_by=" ++ Py.str (Py.get d "sort_by" (PStr "block_time"))
       ++ "&sort_order=" ++ Py.str (Py.get d "sort_order" (PStr "desc"))].
Proof.
  intros L. rewrite callTool_urls.
  cbv [route_of]. cbn [String.eqb Ascii.eqb Bool.eqb].
  rewrite (address_missing_false d a L).
  rewrite !(optional_truthy _ _ _ (lookup_truthy _ _ _ L)).
  cbv [required]. unfold Py.get at 1. rewrite L. reflexivity.
Qed.

(** The URL of [get-latest-blocks]. *)
Lemma latest_blocks_url w arguments :
  request_urls (snd (callTool w "get-latest-blocks" arguments))
  = ["https://pro-api.solscan.io/v2.0/block/last?limit="
       ++ Py.str (optional arguments "limit" (PInt 10))].
Proof. rewrite callTool_urls. reflexivity. Qed.

(** C5.  A call to get-account-activities whose arguments hold only the
    address sends a GET whose query is the address followed by
    [page=1&page_size=10&sort_by=block_time&sort_order=desc], in that
    order. *)
Theorem activities_default_query w a :
  request_urls
    (snd (callTool w "get-account-activities" (Some [("address", PStr a)])))
  = ["https://pro-api.solscan.io/v2.0/account/defi/activities?address=" ++ a
       ++ "&page=1&page_size=10&sort_by=block_time&sort_order=desc"].
Proof.
  rewrite (account_activities_url w _ (PStr a)) by reflexivity.
  reflexivity.
Qed.

(** C6.  A call to get-latest-blocks with no arguments, or with an empty
    mapping, sends a GET whose query is [limit=10]. *)
Theorem latest_blocks_default_limit w :
  request_urls (snd (callTool w "get-latest-blocks" None))
  = ["https://pro-api.solscan.io/v2.0/block/last?limit=10"] /\
  request_urls (snd (callTool w "get-latest-blocks" (Some [])))
  = ["https://pro-api.solscan.io/v2.0/block/last?limit=10"].
Proof. split; rewrite latest_blocks_url; reflexivity. Qed.

Lemma get_supplied d key v default :
  Py.lookup key d = Some v -> Py.get d key default = v.
Proof. unfold Py.get. now intros ->. Qed.

(** C7.  No optional parameter is checked against the bounds or the enum
    of its schema: [limit], [page], [page_size], [sort_by] and
    [sort_order] go into the URL as [str] of whatever value was supplied
    (the default when none was), and the request is sent. *)
Theorem optional_values_are_forwarded w d :
  (forall key v default, Py.lookup key d = Some v -> Py.get d key default = v) /\
  (d <> [] ->
   request_urls (snd (callTool w "get-latest-blocks" (Some d)))
   = ["https://pro-api.solscan.io/v2.0/block/last?limit="
        ++ Py.str (Py.get d "limit" (PInt 10))]) /\
  (forall a, Py.lookup "address" d = Some a ->
   request_urls (snd (callTool w "get-account-info" (Some d)))
   = ["https://pro-api.solscan.io/v2.0/account/token-accounts?address="
        ++ Py.str a ++ "&type=token&page=" ++ Py.str (Py.get d "page" (PInt 1))
        ++ "&page_size=" ++ Py.str (Py.get d "page_size" (PInt 10))]) /\
  (forall a, Py.lookup "address" d = Some a ->
   request_urls (snd (callTool w "get-account-activities" (Some d)))
   = ["https://pro-api.solscan.io/v2.0/account/defi/activities?address="
        ++ Py.str a
        ++ "&page=" ++ Py.str (Py.get d "page" (PInt 1))
        ++ "&page_size=" ++ Py.str (Py.get d "page_size" (PInt 10))
        ++ "&sort_by=" ++ Py.str (Py.get d "sort_by" (PStr "block_time"))
        ++ "&sort_order=" ++ Py.str (Py.get d "sort_order" (PStr "desc"))]).
Proof.
  split; [intros; now apply get_supplied |].
  split; [| split; intros a L;
            [now apply account_info_url | now apply account_activities_url]].
  intros N. rewrite latest_blocks_url.
  destruct d; [contradiction | reflexivity].
Qed.

Lemma optional_values_are_forwarded_witness :
  request_urls (snd (callTool silent "get-latest-blocks" (Some out_of_range)))
  = ["https://pro-api.solscan.io/v2.0/block/last?limit=1000"] /\
  request_urls (snd (callTool silent "get-account-info" (Some out_of_range)))
  = ["https://pro-api.solscan.io/v2.0/account/token-accounts?address=X&type=token&page=-3&page_size=5000"] /\
  request_urls (snd (callTool silent "get-account-activities" (Some out_of_range)))
  = ["https://pro-api.solscan.io/v2.0/account/defi/activities?address=X&page=-3&page_size=5000&sort_by=slot&sort_order=sideways"].
Proof.
  destruct (optional_values_are_forwarded silent out_of_range)
    as (_ & blocks & info & activities).
  split; [apply blocks; discriminate |].
  split; [apply (info (PStr "X")) | apply (activities (PStr "X"))]; reflexivity.
Defined.

(** C8.  A call to a catalog tool, whatever its arguments, returns a
    sequence of exactly one content item, and that item is a text
    item. *)
Theorem one_text_item w name arguments :
  In name tool_names ->
  exists text t, callTool w name arguments = (Returned [TextContent text], t).
Proof.
  intros H.
  destruct (callTool_route w name arguments) as (t & E & _).
  rewrite E.
  destruct (route_of_catalog name arguments H) as [(_ & _ & ->) | (url & -> & _)];
    cbv [route_outcome render].
  - eauto.
  - destruct (Py.truthy _); cbn [negb]; eauto.
Qed.

Lemma one_text_item_witness :
  exists text t,
    callTool silent "get-token-info" (Some [("address", PStr "X")])
    = (Returned [TextContent text], t).
Proof.
  apply (one_text_item silent "get-token-info" (Some [("address", PStr "X")])).
  simpl. tauto.
Defined.

(** C9.  When the GET a catalog tool sends succeeds with a body that
    decodes to a falsy value, the call does not return that value's [str]
    but the failure text of the tool, which starts "Failed to
    retrieve". *)
Theorem falsy_payload_reads_as_failure w name arguments url v :
  In name tool_names ->
  In url (request_urls (snd (callTool w name arguments))) ->
  upstream_yields w url v ->
  Py.truthy v = false ->
  fst (make_solscan_request url w []) = Returned v /\
  fst (callTool w name arguments) = Returned [TextContent (failure_text name)] /\
  exists what, failure_text name = "Failed to retrieve " ++ what.
Proof.
  intros H U Y T.
  assert (V : request_value w url = v).
  { unfold request_value. now rewrite (attempt_yields _ _ _ Y). }
  split; [| split].
  - destruct (make_solscan_request_run url w []) as (t' & E & _).
    rewrite E. cbn [fst]. now rewrite V.
  - rewrite callTool_urls in U. rewrite callTool_outcome.
    destruct (route_of_catalog name arguments H) as [(_ & _ & R) | (u & R & _)];
      rewrite R in *; cbn [route_urls In] in U.
    + contradiction.
    + destruct U as [-> | []].
      cbv [route_outcome render]. rewrite V, T. reflexivity.
  - simpl in H.
    destruct H as [<- | [<- | [<- | [<- | [<- | []]]]]]; eexists; reflexivity.
Qed.

Lemma falsy_payload_reads_as_failure_witness :
  fst (make_solscan_request "https://pro-api.solscan.io/v2.0/block/last?limit=10"
         (echo (PList [])) [])
  = Returned (PList []) /\
  fst (callTool (echo (PList [])) "get-latest-blocks" None)
  = Returned [TextContent (failure_text "get-latest-blocks")] /\
  exists what, failure_text "get-latest-blocks" = "Failed to retrieve " ++ what.
Proof.
  apply (falsy_payload_reads_as_failure (echo (PList [])) "get-latest-blocks" None
           "https://pro-api.solscan.io/v2.0/block/last?limit=10" (PList [])).
  - simpl. tauto.
  - simpl. tauto.
  - exists {| status_code := 200; json := inr (PList []) |}.
    repeat split; reflexivity.
  - reflexivity.
Defined.

(** C10.  The GET of get-account-info with an address carries
    [type=token] between the address and the page, whatever the
    arguments. *)
Theorem account_info_type_token w d a :
  Py.lookup "address" d = Some a ->
  request_urls (snd (callTool w "get-account-info" (Some d)))
  = ["https://pro-api.solscan.io/v2.0/account/token-accounts?address="
       ++ Py.str a ++ "&type=token&page=" ++ Py.str (Py.get d "page" (PInt 1))
       ++ "&page_size=" ++ Py.str (Py.get d "page_size" (PInt 10))].
Proof. apply account_info_url. Qed.

Lemma account_info_type_token_witness :
  request_urls
    (snd (callTool silent "get-account-info"
            (Some [("type", PStr "nft"); ("address", PStr "X"); ("page", PInt 2)])))
  = ["https://pro-api.solscan.io/v2.0/account/token-accounts?address=X&type=token&page=2&page_size=10"].
Proof.
  apply (account_info_type_token silent
           [("type", PStr "nft"); ("address", PStr "X"); ("page", PInt 2)]
           (PStr "X")).
  reflexivity.
Defined.

(** ** Further properties *)

(** *** Exact traces *)

Lemma make_solscan_request_trace url w t :
  make_solscan_request url w t
  = (Returned (request_value w url), (t ++ request_events w url)%list).
Proof.
  cbv [make_solscan_request request_value attempt try_except bind ask
    httpx_get raise_for_status response_json logging_info logging_error
    emit ret raise request_events error_dict].
  change [("token", PStr (API_TOKEN w))] with (auth_headers w).
  destruct (client_get w url (auth_headers w) 10) as [e | r].
  - rewrite <- !app_assoc. reflexivity.
  - destruct (is_success r); [destruct (json r) as [e | v] |];
      rewrite <- !app_assoc; reflexivity.
Qed.

Ltac close_trace :=
  cbv [ret route_outcome render]; cbn [negb];
  f_equal; rewrite <- ?app_assoc; cbn [app]; rewrite ?app_nil_r; reflexivity.

Ltac fetch_exact :=
  cbn [append];
  rewrite make_solscan_request_trace;
  cbv [route_outcome render];
  destruct (Py.truthy (request_value _ _)); close_trace.

Lemma handle_call_tool_trace name arguments w t :
  handle_call_tool name arguments w t
  = (route_outcome w name (route_of name arguments),
     (t ++ call_events w name arguments)%list).
Proof.
  cbv [handle_call_tool call_events route_of bind logging_info emit API_BASE].
  fold (address_missing arguments).
  repeat match goal with
         | |- context [String.eqb name ?s] => destruct (String.eqb name s)
         end.
  all: try (destruct (address_missing_cases arguments)
              as [[G _] | (d & a & -> & L & G)];
            rewrite G;
            [ close_trace
            | cbv [bind getitem args_get required ret];
              rewrite ?(optional_truthy _ _ _ (lookup_truthy _ _ _ L));
              cbv [Py.get]; rewrite L; fetch_exact ]).
  all: try (destruct arguments as [[| ? ?] |];
            cbn [args_value Py.truthy optional];
            cbv [bind args_get ret]; fetch_exact).
  cbv [raise]. close_trace.
Qed.

Lemma callTool_events w name arguments :
  snd (callTool w name arguments) = call_events w name arguments.
Proof. unfold callTool. now rewrite handle_call_tool_trace. Qed.

Lemma requests_app t1 t2 :
  requests (t1 ++ t2)%list = (requests t1 ++ requests t2)%list.
Proof. apply filter_app. Qed.

Lemma requests_of_request_events w url :
  requests (request_events w url) = [HttpGet url (auth_headers w) 10].
Proof.
  unfold request_events. rewrite requests_app.
  destruct (client_get w url (auth_headers w) 10) as [e | r];
    [| destruct (is_success r); [destruct (json r) |]]; reflexivity.
Qed.

(** X1.  [make_solscan_request] never raises: for every upstream it
    returns a value, and it sends exactly one GET, to the given URL, with
    the header [token] and the timeout 10; there is no second attempt. *)
Theorem helper_returns_after_one_get w url t :
  exists v t',
    make_solscan_request url w t = (Returned v, t') /\
    requests t'
    = (requests t ++ [HttpGet url [("token", PStr (API_TOKEN w))] 10])%list.
Proof.
  exists (request_value w url), (t ++ request_events w url)%list.
  split; [apply make_solscan_request_trace |].
  now rewrite requests_app, requests_of_request_events.
Qed.

(** X2.  On a 2xx answer whose body decodes, the helper returns the
    decoded body and writes, in this order: the URL, the headers (with the
    token), the GET, the status and the data. *)
Theorem helper_logs_success w url t r v :
  client_get w url [("token", PStr (API_TOKEN w))] 10 = inr r ->
  is_success r = true ->
  json r = inr v ->
  make_solscan_request url w t
  = (Returned v,
     (t ++ [ LogInfo ("Request URL: " ++ url);
             LogInfo ("Request Headers: {'token': "
                        ++ Py.repr_str (API_TOKEN w) ++ "}");
             HttpGet url [("token", PStr (API_TOKEN w))] 10;
             LogInfo ("Response Status: " ++ Py.str_int (status_code r));
             LogInfo ("Response Data: " ++ Py.str v) ])%list).
Proof.
  intros G S J. rewrite make_solscan_request_trace.
  unfold request_value, attempt, request_events, auth_headers.
  rewrite G, S, J. reflexivity.
Qed.

Lemma helper_logs_success_witness :
  make_solscan_request "https://pro-api.solscan.io/v2.0/block/last?limit=10"
    (echo (PList [PInt 1])) []
  = (Returned (PList [PInt 1]),
     [ LogInfo "Request URL: https://pro-api.solscan.io/v2.0/block/last?limit=10";
       LogInfo "Request Headers: {'token': 'secret'}";
       HttpGet "https://pro-api.solscan.io/v2.0/block/last?limit=10"
               [("token", PStr "secret")] 10;
       LogInfo "Response Status: 200";
       LogInfo "Response Data: [1]" ]).
Proof.
  apply (helper_logs_success (echo (PList [PInt 1]))
           "https://pro-api.solscan.io/v2.0/block/last?limit=10" []
           {| status_code := 200; json := inr (PList [PInt 1]) |}
           (PList [PInt 1]));
    reflexivity.
Defined.

(** X3.  When the GET fails (transport, status, decoding) the helper
    returns the error dict and writes the URL, the headers, the GET and
    one error line "Request failed: ..."; no status or data line is
    written. *)
Theorem helper_logs_failure w url t e :
  upstream_fails w url e ->
  make_solscan_request url w t
  = (Returned (PDict [("error", PStr (str_exn e))]),
     (t ++ [ LogInfo ("Request URL: " ++ url);
             LogInfo ("Request Headers: {'token': "
                        ++ Py.repr_str (API_TOKEN w) ++ "}");
             HttpGet url [("token", PStr (API_TOKEN w))] 10;
             LogError ("Request failed: " ++ str_exn e) ])%list).
Proof.
  intros F. rewrite make_solscan_request_trace.
  unfold request_value, request_events. rewrite (attempt_fails _ _ _ F).
  destruct F as [e G | r G S | r e G S J]; rewrite G; try rewrite S;
    try rewrite J; reflexivity.
Qed.

Lemma helper_logs_failure_witness :
  make_solscan_request "https://pro-api.solscan.io/v2.0/token/meta?address=X"
    silent []
  = (Returned (PDict [("error", PStr "timed out")]),
     [ LogInfo "Request URL: https://pro-api.solscan.io/v2.0/token/meta?address=X";
       LogInfo "Request Headers: {'token': 'secret'}";
       HttpGet "https://pro-api.solscan.io/v2.0/token/meta?address=X"
               [("token", PStr "secret")] 10;
       LogError "Request failed: timed out" ]).
Proof.
  apply (helper_logs_failure silent
           "https://pro-api.solscan.io/v2.0/token/meta?address=X" []
           (TransportError "timed out")).
  apply fails_transport. reflexivity.
Defined.


(** X5.  Every call, also of an unknown tool or without the address,
    first logs the tool name and the arguments; a call that sends no
    request logs nothing else. *)
Theorem call_is_logged_first w name arguments :
  exists rest,
    snd (callTool w name arguments)
    = LogInfo ("Tool called: " ++ name)
        :: LogInfo ("Arguments: " ++ Py.str (args_value arguments))
        :: rest /\
    (request_urls (snd (callTool w name arguments)) = [] -> rest = []).
Proof.
  rewrite callTool_urls, callTool_events. unfold call_events.
  destruct (route_of name arguments) as [| url failure |];
    (eexists; split; [reflexivity |]); trivial.
  discriminate.
Qed.

(** X6.  A call sends at most one GET, whatever the name, the arguments
    and the upstream, and that GET carries the header [token] and the
    timeout 10. *)
Theorem at_most_one_request w name arguments :
  requests (snd (callTool w name arguments)) = [] \/
  exists url,
    requests (snd (callTool w name arguments))
    = [HttpGet url [("token", PStr (API_TOKEN w))] 10].
Proof.
  rewrite callTool_events. unfold call_events. rewrite requests_app.
  destruct (route_of name arguments) as [| url failure |]; auto.
  right. exists url. now rewrite requests_of_request_events.
Qed.

(** X7.  Every URL the dispatcher requests starts with
    [https://pro-api.solscan.io/v2.0/]: the arguments reach the query
    string only, never the host or the version. *)
Theorem requests_go_to_the_api_host w name arguments url :
  In url (request_urls (snd (callTool w name arguments))) ->
  prefix "https://pro-api.solscan.io/v2.0/" url = true.
Proof.
  rewrite callTool_urls. cbv [route_of].
  repeat match goal with
         | |- context [String.eqb name ?s] => destruct (String.eqb name s)
         end;
    try destruct (address_missing arguments);
    cbn [route_urls In]; intros [<- | []] || intros []; reflexivity.
Qed.

Lemma requests_go_to_the_api_host_witness :
  prefix "https://pro-api.solscan.io/v2.0/"
         "https://pro-api.solscan.io/v2.0/token/price?address=//evil.example/"
  = true.
Proof.
  apply (requests_go_to_the_api_host silent "get-sol-token-price"
           (Some [("address", PStr "//evil.example/")])).
  simpl. tauto.
Defined.

Lemma required_absent name arguments :
  required_present name arguments = false ->
  In name address_tools /\ address_absent arguments.
Proof.
  unfold required_present.
  destruct (existsb (String.eqb name) address_tools) eqn:E; [| discriminate].
  apply existsb_exists in E. destruct E as (n & I & E).
  apply String.eqb_eq in E. subst n.
  intros P. split; [exact I |].
  destruct arguments as [d |]; [| exact Logic.I].
  unfold Py.contains in P. cbn [address_absent].
  destruct (Py.lookup "address" d); [discriminate | reflexivity].
Qed.

(** X8.  For a catalog tool, the required arguments decide the route:
    when they are present exactly one GET is sent; when they are not, the
    call returns "Address parameter is required" and its whole trace is
    the two log lines of the call. *)
Theorem request_iff_required_present w name arguments :
  In name tool_names ->
  (required_present name arguments = true ->
   exists url, request_urls (snd (callTool w name arguments)) = [url]) /\
  (required_present name arguments = false ->
   callTool w name arguments
   = (Returned [TextContent "Address parameter is required"],
      [ LogInfo ("Tool called: " ++ name);
        LogInfo ("Arguments: " ++ Py.str (args_value arguments)) ])).
Proof.
  intros H. split; intros P.
  - destruct (route_of_present name arguments H P) as (url & R).
    exists url. now rewrite callTool_urls, R.
  - destruct (required_absent name arguments P) as (A & N).
    apply address_missing_true in N.
    unfold callTool. rewrite handle_call_tool_trace. unfold call_events.
    destruct (route_of_catalog name arguments H) as [(_ & _ & ->) | (url & _ & G)].
    + reflexivity.
    + rewrite (G A) in N. discriminate.
Qed.

Lemma request_iff_required_present_witness :
  (required_present "get-token-info" (Some [("page", PInt 1)]) = true ->
   exists url,
     request_urls (snd (callTool silent "get-token-info" (Some [("page", PInt 1)])))
     = [url]) /\
  (required_present "get-token-info" (Some [("page", PInt 1)]) = false ->
   callTool silent "get-token-info" (Some [("page", PInt 1)])
   = (Returned [TextContent "Address parameter is required"],
      [ LogInfo "Tool called: get-token-info";
        LogInfo "Arguments: {'page': 1}" ])).
Proof.
  apply (request_iff_required_present silent "get-token-info"
           (Some [("page", PInt 1)])).
  simpl. tauto.
Defined.

(** X9.  Whenever a call sends a request, the credential is written to
    the log in clear, inside the "Request Headers" line. *)
Theorem token_is_written_to_the_log w name arguments url :
  In url (request_urls (snd (callTool w name arguments))) ->
  In (LogInfo ("Request Headers: {'token': " ++ Py.repr_str (API_TOKEN w) ++ "}"))
     (snd (callTool w name arguments)).
Proof.
  rewrite callTool_urls, callTool_events. unfold call_events.
  destruct (route_of name arguments) as [| u failure |]; cbn [route_urls In];
    try tauto.
  intros _. apply in_or_app. right. unfold request_events.
  apply in_or_app. left. right. left. reflexivity.
Qed.

Lemma token_is_written_to_the_log_witness :
  In (LogInfo "Request Headers: {'token': 'secret'}")
     (snd (callTool silent "get-latest-blocks" None)).
Proof.
  apply (token_is_written_to_the_log silent "get-latest-blocks" None
           "https://pro-api.solscan.io/v2.0/block/last?limit=10").
  simpl. tauto.
Defined.

Lemma lookup_snoc k (d : dict) key v :
  Py.lookup k (d ++ [(key, v)])%list
  = match Py.lookup k d with
    | Some x => Some x
    | None => if key =? k then Some v else None
    end.
Proof.
  induction d as [| [k' v'] d IH]; cbn [app Py.lookup]; [reflexivity |].
  destruct (k' =? k); [reflexivity | exact IH].
Qed.

Lemma get_snoc (d : dict) key v k default :
  Py.get (d ++ [(key, v)])%list k default
  = match Py.lookup k d with
    | Some x => x
    | None => if key =? k then v else default
    end.
Proof.
  unfold Py.get. rewrite lookup_snoc.
  destruct (Py.lookup k d); [reflexivity |]. now destruct (key =? k).
Qed.

Lemma optional_snoc (d : dict) key v k default :
  optional (Some (d ++ [(key, v)])%list) k default
  = match Py.lookup k d with
    | Some x => x
    | None => if key =? k then v else default
    end.
Proof.
  rewrite <- get_snoc. destruct d; reflexivity.
Qed.

Lemma optional_lookup d k default :
  optional (Some d) k default
  = match Py.lookup k d with Some x => x | None => default end.
Proof. destruct d; reflexivity. Qed.

Lemma address_missing_snoc (d : dict) key v :
  (key =? "address") = false ->
  address_missing (Some (d ++ [(key, v)])%list) = address_missing (Some d).
Proof.
  intros N.
  destruct (Py.lookup "address" d) as [a |] eqn:L.
  - rewrite (address_missing_false d a L).
    apply address_missing_false with a. now rewrite lookup_snoc, L.
  - rewrite !address_missing_true; trivial.
    cbn [address_absent]. now rewrite lookup_snoc, L, N.
Qed.

Lemma route_of_default t key default (d : dict) :
  In t handle_list_tools ->
  In (key, default) (defaults_of t) ->
  Py.lookup key d = None ->
  route_of (name t) (Some (d ++ [(key, default)])%list) = route_of (name t) (Some d).
Proof.
  intros H K L. simpl in H.
  destruct H as [<- | [<- | [<- | [<- | [<- | []]]]]]; simpl in K;
    repeat match type of K with
           | _ \/ _ => destruct K as [K | K]
           | False => destruct K
           end;
    inversion K; subst key default; clear K;
    cbv [route_of name]; cbn [String.eqb Ascii.eqb Bool.eqb];
    rewrite ?address_missing_snoc by reflexivity;
    cbv [required]; rewrite ?optional_snoc, ?get_snoc, ?optional_lookup;
    unfold Py.get; rewrite ?L; reflexivity.
Qed.

(** X10.  The defaults of the catalog are the defaults of the
    dispatcher: for every descriptor and every property that declares a
    [default], adding that default for a key the arguments lack changes
    neither the response nor the requested URL. *)
Theorem schema_defaults_are_dispatcher_defaults w t key default (d : dict) :
  In t handle_list_tools ->
  In (key, default) (defaults_of t) ->
  Py.lookup key d = None ->
  fst (callTool w (name t) (Some (d ++ [(key, default)])%list))
  = fst (callTool w (name t) (Some d)) /\
  request_urls (snd (callTool w (name t) (Some (d ++ [(key, default)])%list)))
  = request_urls (snd (callTool w (name t) (Some d))).
Proof.
  intros H K L.
  rewrite !callTool_outcome, !callTool_urls.
  now rewrite (route_of_default t key default d H K L).
Qed.

Lemma schema_defaults_are_dispatcher_defaults_witness :
  fst (callTool (echo (PList [PInt 1])) "get-account-activities"
         (Some ([("address", PStr "X"); ("page", PInt 2)]
                  ++ [("sort_order", PStr "desc")])%list))
  = fst (callTool (echo (PList [PInt 1])) "get-account-activities"
           (Some [("address", PStr "X"); ("page", PInt 2)])) /\
  request_urls
    (snd (callTool (echo (PList [PInt 1])) "get-account-activities"
            (Some ([("address", PStr "X"); ("page", PInt 2)]
                     ++ [("sort_order", PStr "desc")])%list)))
  = request_urls
      (snd (callTool (echo (PList [PInt 1])) "get-account-activities"
              (Some [("address", PStr "X"); ("page", PInt 2)]))).
Proof.
  apply (schema_defaults_are_dispatcher_defaults (echo (PList [PInt 1]))
           (nth 3 handle_list_tools
                {| name := ""; description := ""; inputSchema := PNone |})
           "sort_order" (PStr "desc")
           [("address", PStr "X"); ("page", PInt 2)]).
  - simpl. tauto.
  - simpl. tauto.
  - reflexivity.
Defined.

(** X11, at a name the catalog has commented out. *)
Lemma unknown_tool_raises_witness :
  exists t,
    callTool silent "get-top-tokens" None
    = (Raised (ValueError "Unknown tool: get-top-tokens"), t) /\
    request_urls t = [].
Proof.
  apply (unknown_tool_raises silent "get-top-tokens" None).
  simpl. intuition discriminate.
Defined.

(** X12.  The handler of [get-token-market], which the catalog does not
    list, guards the address like the listed ones: without it the call is
    rejected before any request, with it the GET goes to
    [token/market?address=...]. *)
Theorem token_market_requires_address w arguments :
  (address_absent arguments ->
   callTool w "get-token-market" arguments
   = (Returned [TextContent "Address parameter is required"],
      [ LogInfo "Tool called: get-token-market";
        LogInfo ("Arguments: " ++ Py.str (args_value arguments)) ])) /\
  (forall d a,
      arguments = Some d ->
      Py.lookup "address" d = Some a ->
      request_urls (snd (callTool w "get-token-market" arguments))
      = ["https://pro-api.solscan.io/v2.0/token/market?address=" ++ Py.str a]).
Proof.
  split.
  - intros A. apply address_missing_true in A.
    unfold callTool. rewrite handle_call_tool_trace.
    cbv [call_events route_of]. cbn [String.eqb Ascii.eqb Bool.eqb].
    rewrite A. reflexivity.
  - intros d a -> L. rewrite callTool_urls.
    cbv [route_of]. cbn [String.eqb Ascii.eqb Bool.eqb].
    rewrite (address_missing_false d a L).
    cbv [required]. unfold Py.get. rewrite L. reflexivity.
Qed.

(** X13.  The handler of [list-sol-tokens], which the catalog does not
    list, has no guard: every call sends a GET to [token/list], with
    [page] and [page_size] from the arguments, 1 and 10 when the arguments
    are absent, empty or lack the key. *)
Theorem list_tokens_always_requests w arguments :
  request_urls (snd (callTool w "list-sol-tokens" arguments))
  = ["https://pro-api.solscan.io/v2.0/token/list?page="
       ++ Py.str (optional arguments "page" (PInt 1))
       ++ "&page_size=" ++ Py.str (optional arguments "page_size" (PInt 10))].
Proof. rewrite callTool_urls. reflexivity. Qed.

(** X14.  The address guard tests the key, not the value: whatever is
    stored under [address] (also [None], a number or the empty string)
    goes into the URL of [get-sol-token-price] and [get-token-info] as its
    [str]. *)
Theorem address_value_is_not_checked w (d : dict) a :
  Py.lookup "address" d = Some a ->
  request_urls (snd (callTool w "get-sol-token-price" (Some d)))
  = ["https://pro-api.solscan.io/v2.0/token/price?address=" ++ Py.str a] /\
  request_urls (snd (callTool w "get-token-info" (Some d)))
  = ["https://pro-api.solscan.io/v2.0/token/meta?address=" ++ Py.str a].
Proof.
  intros L. rewrite !callTool_urls.
  cbv [route_of]. cbn [String.eqb Ascii.eqb Bool.eqb].
  rewrite (address_missing_false d a L).
  cbv [required]. unfold Py.get. rewrite L. split; reflexivity.
Qed.

Lemma address_value_is_not_checked_witness :
  request_urls
    (snd (callTool silent "get-sol-token-price" (Some [("address", PNone)])))
  = ["https://pro-api.solscan.io/v2.0/token/price?address=None"] /\
  request_urls
    (snd (callTool silent "get-token-info" (Some [("address", PNone)])))
  = ["https://pro-api.solscan.io/v2.0/token/meta?address=None"].
Proof.
  apply (address_value_is_not_checked silent [("address", PNone)] PNone).
  reflexivity.
Defined.

Lemma startup_token getenv token :
  startup getenv = inr token ->
  getenv "SOLSCAN_API_TOKEN" = Some token /\ token <> "".
Proof.
  unfold startup.
  destruct (getenv "SOLSCAN_API_TOKEN") as [s |]; cbn; [| discriminate].
  destruct s; cbn; [discriminate |].
  intros E. injection E as <-. split; [reflexivity | discriminate].
Qed.

(** X15.  After a start-up that succeeded, every GET of every call
    carries as its only header the non-empty value of
    [SOLSCAN_API_TOKEN], and the timeout 10. *)
Theorem requests_carry_the_configured_token getenv w name arguments
        url headers timeout :
  startup getenv = inr (API_TOKEN w) ->
  In (HttpGet url headers timeout) (snd (callTool w name arguments)) ->
  exists token,
    getenv "SOLSCAN_API_TOKEN" = Some token /\
    token <> "" /\
    headers = [("token", PStr token)] /\
    timeout = 10%Z.
Proof.
  intros S I.
  destruct (startup_token _ _ S) as (G & N).
  assert (R : In (HttpGet url headers timeout)
                 (requests (snd (callTool w name arguments))))
    by (apply filter_In; split; [exact I | reflexivity]).
  rewrite callTool_events in R. unfold call_events in R.
  rewrite requests_app in R. cbn [requests filter app] in R.
  destruct (route_of name arguments) as [| u failure |];
    try (cbn in R; contradiction).
  fold (requests (request_events w u)) in R.
  rewrite requests_of_request_events in R.
  destruct R as [R | []]. inversion R; subst.
  exists (API_TOKEN w). repeat split; trivial.
Qed.

Lemma requests_carry_the_configured_token_witness :
  exists token,
    (fun key => if key =? "SOLSCAN_API_TOKEN" then Some "secret" else None)
      "SOLSCAN_API_TOKEN" = Some token /\
    token <> "" /\
    [("token", PStr "secret")] = [("token", PStr token)] /\
    10%Z = 10%Z.
Proof.
  apply (requests_carry_the_configured_token
           (fun key => if key =? "SOLSCAN_API_TOKEN" then Some "secret" else None)
           silent "get-latest-blocks" None
           "https://pro-api.solscan.io/v2.0/block/last?limit=10"
           [("token", PStr "secret")] 10).
  - reflexivity.
  - simpl. tauto.
Defined.

(** X16.  A failure cannot be told from a payload: when the GET of a
    call fails with [e], the response is the one a successful upstream
    answering the JSON object [{"error": str(e)}] would give. *)
Theorem failure_reads_like_an_error_payload w1 w2 name arguments url e :
  In url (request_urls (snd (callTool w1 name arguments))) ->
  upstream_fails w1 url e ->
  upstream_yields w2 url (PDict [("error", PStr (str_exn e))]) ->
  fst (callTool w1 name arguments) = fst (callTool w2 name arguments).
Proof.
  intros U F Y. rewrite callTool_urls in U. rewrite !callTool_outcome.
  destruct (route_urls_fetch _ _ U) as (failure & ->).
  cbv [route_outcome request_value].
  now rewrite (attempt_fails _ _ _ F), (attempt_yields _ _ _ Y).
Qed.

Lemma failure_reads_like_an_error_payload_witness :
  fst (callTool silent "get-latest-blocks" None)
  = fst (callTool (echo (PDict [("error", PStr "timed out")]))
           "get-latest-blocks" None).
Proof.
  apply (failure_reads_like_an_error_payload silent
           (echo (PDict [("error", PStr "timed out")]))
           "get-latest-blocks" None
           "https://pro-api.solscan.io/v2.0/block/last?limit=10"
           (TransportError "timed out")).
  - simpl. tauto.
  - apply fails_transport. reflexivity.
  - exists {| status_code := 200;
              json := inr (PDict [("error", PStr "timed out")]) |}.
    repeat split; reflexivity.
Defined.
